(** * fundraising/forms.py: the donation transaction of [PaymentForm]

    A shallow embedding of [PaymentForm.make_donation] and of the field
    declarations of [PaymentForm].  The Stripe client and the ORM are the two
    collaborators of the method: their answers are parameters of a run, the
    calls made to them are recorded, in order, in the run's event list. *)

From Stdlib Require Import String Ascii ZArith List Bool Lia.
Import ListNotations.
Local Open Scope string_scope.
Local Open Scope Z_scope.

(** ** Exceptions *)

(** The exception classes [make_donation] distinguishes.  The first four are
    the subclasses of [stripe.StripeError] named by the handlers; [StripeError]
    stands for any other Stripe error, [Exception] for any other exception
    (a database error for one), [BaseException] for what is not an
    [Exception] at all.  The string is [str(e)]. *)
Inductive exn : Type :=
| CardError (s : string)
| InvalidRequestError (s : string)
| APIConnectionError (s : string)
| AuthenticationError (s : string)
| StripeError (s : string)
| Exception (s : string)
| BaseException (s : string)
| KeyError (key : string)
| DonationError (msg : string).

Inductive Result (A : Type) : Type :=
| Returned (a : A)
| Raised (e : exn).
Arguments Returned {A} a.
Arguments Raised {A} e.

(** ** Objects of the collaborators *)

Record Customer : Type := { Customer_id : string }.
Record Charge : Type := { Charge_id : string }.
Record Subscription : Type := { Subscription_id : string }.
Record Campaign : Type := { Campaign_pk : Z }.

(** Modelled from the spec: the [Donation] model of fundraising/models.py,
    which is not among the sources.  Its fields are the keyword arguments
    [make_donation] passes to [Donation.objects.create]; [campaign] is [None]
    when the key is left out of [donation_params]. *)
Record Donation : Type := {
  Donation_amount : Z;
  Donation_stripe_customer_id : string;
  Donation_stripe_charge_id : string;
  Donation_stripe_subscription_id : string;
  Donation_receipt_email : option string;
  Donation_campaign : option Campaign
}.

(** The Stripe client: one answer per operation, an object or an exception. *)
Record Stripe : Type := {
  api_Customer_create : string -> exn + Customer;
  api_Charge_create : Z -> string -> string -> option string -> exn + Charge;
  api_subscriptions_create : Customer -> string -> Z -> exn + Subscription
}.

(** The ORM: [Donation.objects.create] either raises or stores the row. *)
Record ORM : Type := {
  orm_create_error : Donation -> option exn
}.

(** ** Events of a run *)

(** Every call that leaves the process, with its arguments and its answer.
    [EvLog] is a record written to a log: [make_donation] has no logging
    call, so no run of it writes one, and the statements about logging say
    so with this event. *)
Inductive Event : Type :=
| EvCustomerCreate (card : string) (r : exn + Customer)
| EvChargeCreate (amount : Z) (currency customer : string)
                 (receipt_email : option string) (r : exn + Charge)
| EvSubscriptionCreate (customer plan : string) (quantity : Z)
                       (r : exn + Subscription)
| EvDonationCreate (params : Donation) (r : exn + Donation)
| EvLog (msg : string).

Definition is_processor_call (ev : Event) : bool :=
  match ev with
  | EvCustomerCreate _ _ | EvChargeCreate _ _ _ _ _
  | EvSubscriptionCreate _ _ _ _ => true
  | _ => false
  end.

Definition is_log (ev : Event) : bool :=
  match ev with EvLog _ => true | _ => false end.

Definition is_donation_create (ev : Event) : bool :=
  match ev with EvDonationCreate _ _ => true | _ => false end.

(** ** The monad of a run: a table of donations threaded through, events
    written out, and a result or an exception. *)

Record Outcome (A : Type) : Type := {
  result : Result A;
  events : list Event;
  table : list Donation
}.
Arguments result {A} o.
Arguments events {A} o.
Arguments table {A} o.

Definition M (A : Type) : Type := list Donation -> Outcome A.

Definition ret {A} (a : A) : M A :=
  fun db => {| result := Returned a; events := []; table := db |}.

Definition raise {A} (e : exn) : M A :=
  fun db => {| result := Raised e; events := []; table := db |}.

(** The events [evs] came first, then the outcome [o]. *)
Definition after {A} (evs : list Event) (o : Outcome A) : Outcome A :=
  match o with
  | {| result := r; events := evs'; table := db |} =>
      {| result := r; events := evs ++ evs'; table := db |}
  end.

Definition bind {A B} (c : M A) (k : A -> M B) : M B :=
  fun db =>
    match c db with
    | {| result := Returned a; events := evs; table := db' |} =>
        after evs (k a db')
    | {| result := Raised e; events := evs; table := db' |} =>
        {| result := Raised e; events := evs; table := db' |}
    end.

Notation "x <- c ;; k" := (bind c (fun x => k))
  (at level 61, c at next level, right associativity).

(** [try: body  except ...: handler  else: orelse].  The handler sees the
    exceptions of [body] only; what [orelse] raises goes past it.  A handler
    answering [None] has no clause for the exception. *)
Definition try_except_else {A B} (body : M A)
    (handler : exn -> option (M B)) (orelse : A -> M B) : M B :=
  fun db =>
    match body db with
    | {| result := Returned a; events := evs; table := db' |} =>
        after evs (orelse a db')
    | {| result := Raised e; events := evs; table := db' |} =>
        match handler e with
        | Some h => after evs (h db')
        | None => {| result := Raised e; events := evs; table := db' |}
        end
    end.

Definition of_sum {A} (r : exn + A) : Result A :=
  match r with inl e => Raised e | inr a => Returned a end.

(** [d[key]] on a dict: [KeyError] when the key is missing. *)
Definition getitem {A} (key : string) (v : option A) : M A :=
  match v with
  | Some a => ret a
  | None => raise (KeyError key)
  end.

(** [x or None] on a string or [None]: the empty string is falsy. *)
Definition or_None (x : option string) : option string :=
  match x with
  | Some s => if (s =? "")%string then None else Some s
  | None => None
  end.

(** ** The form *)

(** [cleaned_data]: a key is [None] when the dict does not hold it.
    [receipt_email] is read with [.get], which gives [None] for a missing
    key; the campaign of a form without one is present and [None]. *)
Record CleanedData : Type := {
  cd_receipt_email : option string;
  cd_amount : option Z;
  cd_campaign : option (option Campaign);
  cd_stripe_token : option string;
  cd_interval : option string
}.

Inductive ValidationError : Type :=
| Invalid (code : string).

Record PaymentForm : Type := {
  cleaned_data : CleanedData;
  errors : list (string * ValidationError)
}.

Definition INTERVAL_CHOICES : list (string * string) :=
  [ ("monthly", "Monthly donation");
    ("quarterly", "Quarterly donation");
    ("yearly", "Yearly donation");
    ("onetime", "One-time donation") ].

Definition dquote : string := String (ascii_of_nat 34) EmptyString.

Definition card_error_message (reply : string) : string :=
  "We're sorry but we had problems charging your card. "
  ++ "Here is what Stripe replied: " ++ dquote ++ reply ++ dquote.

Definition invalid_request_message : string :=
  "We're sorry but something went wrong while processing "
  ++ "your card details. No charge was done. Please try "
  ++ "again or get in touch with us.".

Definition connection_error_message : string :=
  "We're sorry but we have technical difficulties "
  ++ "reaching our payment processor Stripe. No charge "
  ++ "was done. Please try again later.".

(** The [except] clauses of [make_donation], first match first. *)
Definition make_donation_handler {A} (e : exn) : option (M A) :=
  match e with
  | CardError s => Some (raise (DonationError (card_error_message s)))
  | InvalidRequestError _ => Some (raise (DonationError invalid_request_message))
  | APIConnectionError _ => Some (raise (DonationError connection_error_message))
  | AuthenticationError _ => Some (raise e)
  | StripeError _ | Exception _ | KeyError _ | DonationError _ => Some (raise e)
  | BaseException _ => None
  end.

Section MakeDonation.

Variable stripe : Stripe.
Variable orm : ORM.

Definition stripe_Customer_create (card : string) : M Customer :=
  fun db =>
    let r := api_Customer_create stripe card in
    {| result := of_sum r; events := [EvCustomerCreate card r]; table := db |}.

Definition stripe_Charge_create (amount : Z) (currency customer : string)
    (receipt_email : option string) : M Charge :=
  fun db =>
    let r := api_Charge_create stripe amount currency customer receipt_email in
    {| result := of_sum r;
       events := [EvChargeCreate amount currency customer receipt_email r];
       table := db |}.

Definition customer_subscriptions_create (customer : Customer)
    (plan : string) (quantity : Z) : M Subscription :=
  fun db =>
    let r := api_subscriptions_create stripe customer plan quantity in
    {| result := of_sum r;
       events := [EvSubscriptionCreate (Customer_id customer) plan quantity r];
       table := db |}.

Definition Donation_objects_create (params : Donation) : M Donation :=
  fun db =>
    match orm_create_error orm params with
    | Some e =>
        {| result := Raised e; events := [EvDonationCreate params (inl e)];
           table := db |}
    | None =>
        {| result := Returned params;
           events := [EvDonationCreate params (inr params)];
           table := db ++ [params] |}
    end.

(** The body of the [try]: it leaves the customer and the two ids. *)
Definition make_donation_try (receipt_email : option string) (amount : Z)
    (stripe_token interval : string) : M (Customer * string * string) :=
  customer <- stripe_Customer_create stripe_token ;;
  if (interval =? "onetime")%string then
    let subscription_id := "" in
    charge <- stripe_Charge_create (amount * 100) "usd"
                (Customer_id customer) (or_None receipt_email) ;;
    let charge_id := Charge_id charge in
    ret (customer, charge_id, subscription_id)
  else
    let charge_id := "" in
    subscription <- customer_subscriptions_create customer interval amount ;;
    let subscription_id := Subscription_id subscription in
    ret (customer, charge_id, subscription_id).

(** The [else] of the [try]: build [donation_params] and create the row. *)
Definition make_donation_else (receipt_email : option string) (amount : Z)
    (campaign : option Campaign)
    (ids : Customer * string * string) : M Donation :=
  let '(customer, charge_id, subscription_id) := ids in
  let donation_params :=
    {| Donation_amount := amount;
       Donation_stripe_customer_id := Customer_id customer;
       Donation_stripe_charge_id := charge_id;
       Donation_stripe_subscription_id := subscription_id;
       Donation_receipt_email := receipt_email;
       Donation_campaign := None |} in
  let donation_params :=
    match campaign with
    | Some c =>
        {| Donation_amount := Donation_amount donation_params;
           Donation_stripe_customer_id := Donation_stripe_customer_id donation_params;
           Donation_stripe_charge_id := Donation_stripe_charge_id donation_params;
           Donation_stripe_subscription_id := Donation_stripe_subscription_id donation_params;
           Donation_receipt_email := Donation_receipt_email donation_params;
           Donation_campaign := Some c |}
    | None => donation_params
    end in
  donation <- Donation_objects_create donation_params ;;
  ret donation.

Definition make_donation (self : PaymentForm) : M Donation :=
  let receipt_email := cd_receipt_email (cleaned_data self) in
  amount <- getitem "amount" (cd_amount (cleaned_data self)) ;;
  campaign <- getitem "campaign" (cd_campaign (cleaned_data self)) ;;
  stripe_token <- getitem "stripe_token" (cd_stripe_token (cleaned_data self)) ;;
  interval <- getitem "interval" (cd_interval (cleaned_data self)) ;;
  try_except_else
    (make_donation_try receipt_email amount stripe_token interval)
    make_donation_handler
    (make_donation_else receipt_email amount campaign).

End MakeDonation.

(** ** Cleaning of the fields of [PaymentForm] *)

(** What the forms library brings to the cleaning of the fields: how a
    submitted string is read as an integer ([int(str(value))] in
    [IntegerField.to_python]), how [CharField] strips a value, and the
    look-up of a campaign in [Campaign.objects.all()]. *)
Record FormsRuntime : Type := {
  to_int : string -> option Z;
  strip : string -> string;
  Campaign_objects_get : string -> option Campaign
}.

(** The submitted data: one optional string per field. *)
Record RawData : Type := {
  raw_amount : option string;
  raw_interval : option string;
  raw_receipt_email : option string;
  raw_campaign : option string;
  raw_stripe_token : option string
}.

(** [value in self.empty_values] for a submitted value. *)
Definition is_empty_value (v : option string) : bool :=
  match v with
  | None => true
  | Some s => (s =? "")%string
  end.

Section Cleaning.

Variable rt : FormsRuntime.

(** Modelled from the spec: [Field.clean] of django.forms, which is not
    among the sources, for
    [amount = forms.IntegerField(required=True, min_value=1)]:
    the amount must parse as an integer of at least 1. *)
Definition clean_amount (value : option string) : ValidationError + Z :=
  match value with
  | None => inl (Invalid "required")
  | Some s =>
      if is_empty_value value then inl (Invalid "required")
      else
        match to_int rt s with
        | None => inl (Invalid "invalid")
        | Some z => if z <? 1 then inl (Invalid "min_value") else inr z
        end
  end.

(** Modelled from the spec: [Field.clean] of django.forms for
    [interval = forms.ChoiceField(required=True, choices=INTERVAL_CHOICES)]:
    the interval must be one of the keys of [INTERVAL_CHOICES]. *)
Definition clean_interval (value : option string) : ValidationError + string :=
  match value with
  | None => inl (Invalid "required")
  | Some s =>
      if is_empty_value value then inl (Invalid "required")
      else if existsb (String.eqb s) (map fst INTERVAL_CHOICES) then inr s
      else inl (Invalid "invalid_choice")
  end.

(** Modelled from the spec: [Field.clean] of django.forms for
    [receipt_email = forms.CharField(required=False)]. *)
Definition clean_receipt_email (value : option string)
    : ValidationError + string :=
  match value with
  | None => inr ""
  | Some s => inr (strip rt s)
  end.

(** Modelled from the spec: [Field.clean] of django.forms for
    [campaign = forms.ModelChoiceField(queryset=Campaign.objects.all(),
    required=False)]. *)
Definition clean_campaign (value : option string)
    : ValidationError + option Campaign :=
  match value with
  | None => inr None
  | Some s =>
      if is_empty_value value then inr None
      else
        match Campaign_objects_get rt s with
        | Some c => inr (Some c)
        | None => inl (Invalid "invalid_choice")
        end
  end.

(** Modelled from the spec: [Field.clean] of django.forms for
    [stripe_token = forms.CharField(widget=forms.HiddenInput())]. *)
Definition clean_stripe_token (value : option string)
    : ValidationError + string :=
  match value with
  | None => inl (Invalid "required")
  | Some s =>
      if is_empty_value (Some (strip rt s)) then inl (Invalid "required")
      else inr (strip rt s)
  end.

Definition cleaned {A} (r : ValidationError + A) : option A :=
  match r with inl _ => None | inr a => Some a end.

Definition field_errors {A} (name : string) (r : ValidationError + A)
    : list (string * ValidationError) :=
  match r with inl e => [(name, e)] | inr _ => [] end.

(** Modelled from the spec: [Form.full_clean] of django.forms.  Each
    field is cleaned in turn; a field that fails leaves an error under its
    name and no key in [cleaned_data]. *)
Definition full_clean (data : RawData) : PaymentForm :=
  let a := clean_amount (raw_amount data) in
  let i := clean_interval (raw_interval data) in
  let r := clean_receipt_email (raw_receipt_email data) in
  let c := clean_campaign (raw_campaign data) in
  let t := clean_stripe_token (raw_stripe_token data) in
  {| cleaned_data :=
       {| cd_receipt_email := cleaned r;
          cd_amount := cleaned a;
          cd_campaign := cleaned c;
          cd_stripe_token := cleaned t;
          cd_interval := cleaned i |};
     errors :=
       field_errors "amount" a ++ field_errors "interval" i
       ++ field_errors "receipt_email" r ++ field_errors "campaign" c
       ++ field_errors "stripe_token" t |}.

End Cleaning.

Definition is_valid (self : PaymentForm) : bool :=
  match errors self with
  | [] => true
  | _ :: _ => false
  end.

(** ** Observations on a run *)

(** The exception a processor call was answered with, if any. *)
Definition processor_error (ev : Event) : option exn :=
  match ev with
  | EvCustomerCreate _ (inl e) => Some e
  | EvChargeCreate _ _ _ _ (inl e) => Some e
  | EvSubscriptionCreate _ _ _ (inl e) => Some e
  | _ => None
  end.

(** The charge or subscription the processor answered with, if the event
    is one, has an id that is not empty. *)
Definition answered_id_nonempty (ev : Event) : bool :=
  match ev with
  | EvChargeCreate _ _ _ _ (inr ch) => negb (Charge_id ch =? "")%string
  | EvSubscriptionCreate _ _ _ (inr s) => negb (Subscription_id s =? "")%string
  | _ => true
  end.

Definition is_charge_call (ev : Event) : bool :=
  match ev with EvChargeCreate _ _ _ _ _ => true | _ => false end.

(** The three exception classes [make_donation] turns into a message for
    the donor. *)
Definition user_facing (e : exn) : bool :=
  match e with
  | CardError _ | InvalidRequestError _ | APIConnectionError _ => true
  | _ => false
  end.

(** [sub in s] on strings. *)
Fixpoint contains (sub s : string) : bool :=
  if String.prefix sub s then true
  else match s with
       | EmptyString => false
       | String _ s' => contains sub s'
       end.

(** The form with another receipt email, everything else the same. *)
Definition with_receipt_email (self : PaymentForm) (email : option string)
    : PaymentForm :=
  {| cleaned_data :=
       {| cd_receipt_email := email;
          cd_amount := cd_amount (cleaned_data self);
          cd_campaign := cd_campaign (cleaned_data self);
          cd_stripe_token := cd_stripe_token (cleaned_data self);
          cd_interval := cd_interval (cleaned_data self) |};
     errors := errors self |}.

(** The claim on a failed persistence in the words of the specification:
    when the creation of the row fails, the caller gets a classified
    [DonationError], and a log record names the customer id and the charge
    or subscription id of the row (the specification asks for the amount
    too, which this definition leaves out). *)
Definition persistence_failure_surfaced (o : Outcome Donation) : Prop :=
  forall params e,
    In (EvDonationCreate params (inl e)) (events o) ->
    (exists msg, result o = Raised (DonationError msg)) /\
    (exists msg, In (EvLog msg) (events o) /\
       contains (Donation_stripe_customer_id params) msg = true /\
       contains (Donation_stripe_charge_id params) msg = true /\
       contains (Donation_stripe_subscription_id params) msg = true).

(** What the caller of [make_donation] sees when the [try] raised [e]: the
    three classes with a message for the donor become a [DonationError],
    every other exception leaves as it came. *)
Definition surfaced (e : exn) : exn :=
  match e with
  | CardError s => DonationError (card_error_message s)
  | InvalidRequestError _ => DonationError invalid_request_message
  | APIConnectionError _ => DonationError connection_error_message
  | _ => e
  end.

Definition is_step2_call (ev : Event) : bool :=
  match ev with
  | EvChargeCreate _ _ _ _ _ | EvSubscriptionCreate _ _ _ _ => true
  | _ => false
  end.

(** The five ways a run of [make_donation] can go, read off its events. *)
Inductive Shape (db : list Donation) : Outcome Donation -> Prop :=
| Shape_missing_key key :
    Shape db {| result := Raised (KeyError key); events := []; table := db |}
| Shape_step1_failed tok e :
    Shape db {| result := Raised (surfaced e);
                events := [EvCustomerCreate tok (inl e)]; table := db |}
| Shape_step2_failed tok c ev2 e :
    is_step2_call ev2 = true ->
    processor_error ev2 = Some e ->
    Shape db {| result := Raised (surfaced e);
                events := [EvCustomerCreate tok (inr c); ev2]; table := db |}
| Shape_create_failed tok c ev2 params e :
    is_step2_call ev2 = true ->
    processor_error ev2 = None ->
    Shape db {| result := Raised e;
                events := [EvCustomerCreate tok (inr c); ev2;
                           EvDonationCreate params (inl e)];
                table := db |}
| Shape_created tok c ev2 params :
    is_step2_call ev2 = true ->
    processor_error ev2 = None ->
    Shape db {| result := Returned params;
                events := [EvCustomerCreate tok (inr c); ev2;
                           EvDonationCreate params (inr params)];
                table := db ++ [params] |}.

(** ** Test doubles *)

Definition stripe_ok : Stripe :=
  {| api_Customer_create := fun _ => inr {| Customer_id := "cus_1" |};
     api_Charge_create := fun _ _ _ _ => inr {| Charge_id := "ch_1" |};
     api_subscriptions_create := fun _ _ _ => inr {| Subscription_id := "sub_1" |} |}.

Definition stripe_failing_step2 (e : exn) : Stripe :=
  {| api_Customer_create := fun _ => inr {| Customer_id := "cus_1" |};
     api_Charge_create := fun _ _ _ _ => inl e;
     api_subscriptions_create := fun _ _ _ => inl e |}.

Definition stripe_failing_step1 (e : exn) : Stripe :=
  {| api_Customer_create := fun _ => inl e;
     api_Charge_create := fun _ _ _ _ => inr {| Charge_id := "ch_1" |};
     api_subscriptions_create := fun _ _ _ => inr {| Subscription_id := "sub_1" |} |}.

Definition orm_ok : ORM := {| orm_create_error := fun _ => None |}.

Definition orm_down : ORM :=
  {| orm_create_error := fun _ => Some (Exception "database is down") |}.

Definition form_of (email : option string) (amount : Z) (interval : string)
    : PaymentForm :=
  {| cleaned_data :=
       {| cd_receipt_email := email;
          cd_amount := Some amount;
          cd_campaign := Some None;
          cd_stripe_token := Some "tok_valid";
          cd_interval := Some interval |};
     errors := [] |}.

(** The donation of 25 dollars, given once, of the scenarios. *)
Definition donation_25 : Donation :=
  {| Donation_amount := 25;
     Donation_stripe_customer_id := "cus_1";
     Donation_stripe_charge_id := "ch_1";
     Donation_stripe_subscription_id := "";
     Donation_receipt_email := Some "";
     Donation_campaign := None |}.

(** The monthly donation of 10 dollars of the scenarios. *)
Definition donation_10 : Donation :=
  {| Donation_amount := 10;
     Donation_stripe_customer_id := "cus_1";
     Donation_stripe_charge_id := "";
     Donation_stripe_subscription_id := "sub_1";
     Donation_receipt_email := None;
     Donation_campaign := None |}.

Definition charge_call_25 (email : option string) (r : exn + Charge) : Event :=
  EvChargeCreate 2500 "usd" "cus_1" email r.

Definition card_declined : exn := CardError "Your card was declined.".

Definition connection_refused : exn := APIConnectionError "Connection refused".

Definition invalid_api_key : exn :=
  AuthenticationError "Invalid API Key provided".

(** A reader of decimal numerals, with an optional minus sign, for the
    examples. *)
Definition digit (c : ascii) : option Z :=
  let n := Z.of_nat (nat_of_ascii c) in
  if (48 <=? n) && (n <=? 57) then Some (n - 48) else None.

Fixpoint digits (s : string) (acc : Z) : option Z :=
  match s with
  | EmptyString => Some acc
  | String c s' =>
      match digit c with
      | Some d => digits s' (10 * acc + d)
      | None => None
      end
  end.

Definition decimal (s : string) : option Z :=
  match s with
  | EmptyString => None
  | String c s' =>
      if (c =? "-")%char then
        match s' with
        | EmptyString => None
        | _ => option_map Z.opp (digits s' 0)
        end
      else digits s 0
  end.

Definition forms_runtime : FormsRuntime :=
  {| to_int := decimal;
     strip := fun s => s;
     Campaign_objects_get := fun _ => None |}.

Definition post (amount interval : string) : RawData :=
  {| raw_amount := Some amount;
     raw_interval := Some interval;
     raw_receipt_email := Some "";
     raw_campaign := None;
     raw_stripe_token := Some "tok_valid" |}.

(** ** Which keys [make_donation] needs *)

(** The first of the four keys [make_donation] reads with [d[key]], in the
    order of its look-ups, that [cleaned_data] does not hold. *)
Definition first_missing_key (cd : CleanedData) : option string :=
  match cd_amount cd, cd_campaign cd, cd_stripe_token cd, cd_interval cd with
  | None, _, _, _ => Some "amount"
  | Some _, None, _, _ => Some "campaign"
  | Some _, Some _, None, _ => Some "stripe_token"
  | Some _, Some _, Some _, None => Some "interval"
  | Some _, Some _, Some _, Some _ => None
  end.

(** The customer id a step-2 call was made for. *)
Definition step2_customer (ev : Event) : option string :=
  match ev with
  | EvChargeCreate _ _ customer _ _ => Some customer
  | EvSubscriptionCreate customer _ _ _ => Some customer
  | _ => None
  end.

Definition is_customer_call (ev : Event) : bool :=
  match ev with EvCustomerCreate _ _ => true | _ => false end.

(** ** [DjangoHeroForm.__init__] *)

Section DjangoHeroFormInit.

(** A form field, with the two tests the loop makes on its widget:
    [isinstance(field.widget, forms.CheckboxInput)] and
    [isinstance(field.widget, forms.RadioSelect)]. *)
Variable Field : Type.
Variable isinstance_CheckboxInput : Field -> bool.
Variable isinstance_RadioSelect : Field -> bool.

(** The [for name, field in self.fields.items()] loop, on the items still
    to visit and the two lists built so far. *)
Fixpoint DjangoHeroForm_init_loop (items : list (string * Field))
    (checkbox_fields radio_select_fields : list string)
    : list string * list string :=
  match items with
  | [] => (checkbox_fields, radio_select_fields)
  | (name, field) :: items' =>
      if isinstance_CheckboxInput field then
        DjangoHeroForm_init_loop items' (checkbox_fields ++ [name])
          radio_select_fields
      else if isinstance_RadioSelect field then
        DjangoHeroForm_init_loop items' checkbox_fields
          (radio_select_fields ++ [name])
      else
        DjangoHeroForm_init_loop items' checkbox_fields radio_select_fields
  end.

(** The names of the fields with a [CheckboxInput], in the order of the
    fields. *)
Definition checkbox_items (items : list (string * Field)) : list string :=
  map fst (filter (fun item => isinstance_CheckboxInput (snd item)) items).

(** The names of the fields with a [RadioSelect] that is no
    [CheckboxInput], in the order of the fields. *)
Definition radio_items (items : list (string * Field)) : list string :=
  map fst (filter (fun item => negb (isinstance_CheckboxInput (snd item))
                               && isinstance_RadioSelect (snd item)) items).

(** [__init__], after the call to the parent class made [self.fields]: the
    pair of [self.checkbox_fields] and [self.radio_select_fields]. *)
Definition DjangoHeroForm_init (fields : list (string * Field))
    : list string * list string :=
  DjangoHeroForm_init_loop fields [] [].

End DjangoHeroFormInit.

(** The widget classes of the fields of [DjangoHeroForm]. *)
Inductive WidgetClass : Type :=
| TextInput
| RadioSelect
| CheckboxInput
| ClearableFileInput.

Definition is_CheckboxInput (w : WidgetClass) : bool :=
  match w with CheckboxInput => true | _ => false end.

Definition is_RadioSelect (w : WidgetClass) : bool :=
  match w with RadioSelect => true | _ => false end.

(** The fields of [DjangoHeroForm] in the order of [Meta.fields], each with
    the widget it declares, or the widget of its field class when it
    declares none. *)
Definition DjangoHeroForm_fields : list (string * WidgetClass) :=
  [ ("hero_type", RadioSelect);
    ("name", TextInput);
    ("url", TextInput);
    ("logo", ClearableFileInput);
    ("is_visible", CheckboxInput);
    ("is_amount_displayed", CheckboxInput);
    ("email", TextInput);
    ("is_subscribed", CheckboxInput) ].

(** ** [StripeTextInput] *)

(** A dict with string keys, in insertion order, its keys distinct. *)
Definition dict (V : Type) : Type := list (string * V).

(** [d.get(key)]. *)
Fixpoint dict_get {V} (key : string) (d : dict V) : option V :=
  match d with
  | [] => None
  | (k, v) :: d' => if (k =? key)%string then Some v else dict_get key d'
  end.

(** [d[key] = value]: the key keeps its place when the dict has it. *)
Fixpoint dict_set {V} (key : string) (value : V) (d : dict V) : dict V :=
  match d with
  | [] => [(key, value)]
  | (k, v) :: d' =>
      if (k =? key)%string then (k, value) :: d'
      else (k, v) :: dict_set key value d'
  end.

Definition dict_keys {V} (d : dict V) : list string := map fst d.

(** A keyword argument of [render]: a dict of HTML attributes, [None], or
    another object that has no [update], a string or a number for one. *)
Inductive kwarg : Type :=
| KwAttrs (attrs : dict string)
| KwNone
| KwOther (repr : string).

(** [None] and the other objects have no [update]. *)
Inductive AttributeError : Type :=
| NoAttribute (attribute : string).

(** [kwargs.setdefault('attrs', {}).update({'data-stripe': name})], then
    [return kwargs].  [setdefault] answers the value the dict has under
    ['attrs'], or puts an empty dict there; the update is made on that
    object, which [kwargs] holds. *)
Definition _add_data_stripe_attr (name : string) (kwargs : dict kwarg)
    : AttributeError + dict kwarg :=
  let kwargs :=
    match dict_get "attrs" kwargs with
    | Some _ => kwargs
    | None => dict_set "attrs" (KwAttrs []) kwargs
    end in
  match dict_get "attrs" kwargs with
  | Some (KwAttrs attrs) =>
      inr (dict_set "attrs" (KwAttrs (dict_set "data-stripe" name attrs)) kwargs)
  | _ => inl (NoAttribute "update")
  end.

(** [s.replace(old, new)] for a pattern [old] that is not empty: the
    occurrences of [old] are found from the left and do not overlap.
    [skip] counts the characters of a found occurrence still to pass. *)
Fixpoint replace_from (old new : string) (skip : nat) (s : string) : string :=
  match s with
  | EmptyString => EmptyString
  | String c s' =>
      match skip with
      | S k => replace_from old new k s'
      | O =>
          if String.prefix old s
          then new ++ replace_from old new (String.length old - 1) s'
          else String c (replace_from old new 0 s')
      end
  end.

Definition str_replace (old new s : string) : string :=
  replace_from old new 0 s.

(** ['name="%s"' % (name,)]. *)
Definition name_attr (name : string) : string :=
  "name=" ++ dquote ++ name ++ dquote.

Definition _strip_name_attr (widget_string name : string) : string :=
  str_replace (name_attr name) "" widget_string.

(** No occurrence of [pat] in [a ++ rest] starts inside [a]. *)
Fixpoint starts_none (pat a rest : string) : bool :=
  match a with
  | EmptyString => true
  | String c a' =>
      negb (String.prefix pat (a ++ rest)) && starts_none pat a' rest
  end.

Section Render.

(** [render] of the parent class, [forms.TextInput], with the positional
    arguments after [name]: a parameter of the method. *)
Variable Args : Type.
Variable super_render : string -> Args -> dict kwarg -> string.

(** [mark_safe] marks the string, and leaves its characters as they are. *)
Definition mark_safe (s : string) : string := s.

Definition render (name : string) (args : Args) (kwargs : dict kwarg)
    : AttributeError + string :=
  match _add_data_stripe_attr name kwargs with
  | inl e => inl e
  | inr kwargs =>
      let rendered := super_render name args kwargs in
      inr (mark_safe (_strip_name_attr rendered name))
  end.

End Render.

(** A stand-in for the parent's [render]: an [input] tag with the name and
    every attribute of [attrs]. *)
Fixpoint flat_attrs (attrs : dict string) : string :=
  match attrs with
  | [] => EmptyString
  | (k, v) :: attrs' => " " ++ k ++ "=" ++ dquote ++ v ++ dquote ++ flat_attrs attrs'
  end.

Definition input_tag (name : string) (args : unit) (kwargs : dict kwarg)
    : string :=
  "<input type=" ++ dquote ++ "text" ++ dquote ++ " " ++ name_attr name
  ++ match dict_get "attrs" kwargs with
     | Some (KwAttrs attrs) => flat_attrs attrs
     | _ => EmptyString
     end
  ++ " />".

(** A form whose token and interval were rejected. *)
Definition form_without_token : PaymentForm :=
  {| cleaned_data :=
       {| cd_receipt_email := Some "";
          cd_amount := Some 25;
          cd_campaign := Some None;
          cd_stripe_token := None;
          cd_interval := None |};
     errors := [("stripe_token", Invalid "required");
                ("interval", Invalid "required")] |}.

Definition no_such_plan : exn := InvalidRequestError "No such plan: monthly".

(** Keyword arguments as a bound field passes them to [render]. *)
Definition number_kwargs : dict kwarg :=
  [("value", KwNone);
   ("attrs", KwAttrs [("id", "id_number"); ("data-stripe", "stale")])].

Definition number_kwargs' : dict kwarg :=
  [("value", KwNone);
   ("attrs", KwAttrs [("id", "id_number"); ("data-stripe", "number")])].

Definition input_open : string :=
  "<input type=" ++ dquote ++ "text" ++ dquote ++ " ".

Definition input_rest : string :=
  " id=" ++ dquote ++ "id_number" ++ dquote
  ++ " data-stripe=" ++ dquote ++ "number" ++ dquote ++ " />".

(** Modelled from the spec: a syntactically well-formed email address, of
    which the sources hold no check.  The definition asks the least any
    such notion does: an [@] with something before it and after it. *)
Definition well_formed_address (s : string) : bool :=
  match String.index 0 "@" s with
  | Some n => (0 <? n)%nat && (n + 1 <? String.length s)%nat
  | None => false
  end.

(** The claim on the receipt email in the words of the specification:
    every charge call receives a well-formed address or the value that
    means none. *)
Definition receipt_email_well_formed_or_none (o : Outcome Donation) : Prop :=
  forall a cur cust email r,
    In (EvChargeCreate a cur cust email r) (events o) ->
    email = None \/
    exists s, email = Some s /\ well_formed_address s = true.

(** * Properties *)

#[local] Arguments String.eqb : simpl never.
#[local] Arguments String.append : simpl never.
#[local] Arguments Z.mul : simpl never.
#[local] Arguments card_error_message : simpl never.
#[local] Arguments contains : simpl never.

(** ** Running the method symbolically *)

Ltac unfold_run :=
  unfold make_donation, make_donation_try, make_donation_else,
    try_except_else, bind, getitem, ret, raise, stripe_Customer_create,
    stripe_Charge_create, customer_subscriptions_create,
    Donation_objects_create; simpl.

Ltac split_answers :=
  repeat match goal with
    | |- context [api_Customer_create ?s ?t] =>
        destruct (api_Customer_create s t) eqn:?; simpl
    | |- context [String.eqb ?i "onetime"] =>
        destruct (String.eqb i "onetime") eqn:?; simpl
    | |- context [api_Charge_create ?s ?a ?c ?k ?r] =>
        destruct (api_Charge_create s a c k r) eqn:?; simpl
    | |- context [api_subscriptions_create ?s ?c ?p ?q] =>
        destruct (api_subscriptions_create s c p q) eqn:?; simpl
    | |- context [orm_create_error ?o ?p] =>
        destruct (orm_create_error o p) eqn:?; simpl
    end.

Ltac split_handler :=
  repeat match goal with
    | |- context [make_donation_handler ?e] => destruct e; simpl
    end.

Ltac open_form self :=
  destruct self as [[re [am|] [[ca|]|] [tok|] [iv|]] errs].

Ltac run_cases self :=
  open_form self; unfold_run; split_answers; split_handler.

Ltac onetime_eq :=
  repeat match goal with
    | H : String.eqb _ _ = true |- _ => apply String.eqb_eq in H
    | H : String.eqb _ _ = false |- _ => apply String.eqb_neq in H
    end.

(** ** The monad and the handler *)

Lemma after_nil {A} (o : Outcome A) : after [] o = o.
Proof. destruct o; reflexivity. Qed.

Lemma bind_ret_l {A B} (a : A) (k : A -> M B) db :
  bind (ret a) k db = k a db.
Proof. unfold bind, ret. apply after_nil. Qed.

Lemma bind_raise_l {A B} (e : exn) (k : A -> M B) db :
  bind (raise e) k db =
  {| result := Raised e; events := []; table := db |}.
Proof. reflexivity. Qed.

Lemma append_assoc (a b c : string) : (a ++ b) ++ c = a ++ (b ++ c).
Proof.
  induction a as [|ch a IH]; simpl; [reflexivity|].
  change (String ch ((a ++ b) ++ c) = String ch (a ++ (b ++ c))).
  rewrite IH. reflexivity.
Qed.

(** The clauses of the handler, taken together, raise [surfaced e]. *)
Lemma handler_surfaced {A} (e : exn) (evs : list Event) db :
  match @make_donation_handler A e with
  | Some h => after evs (h db)
  | None => {| result := Raised e; events := evs; table := db |}
  end = {| result := Raised (surfaced e); events := evs; table := db |}.
Proof.
  destruct e; simpl; rewrite ?app_nil_r; reflexivity.
Qed.

Lemma surfaced_not_user_facing (e : exn) :
  user_facing e = false -> surfaced e = e.
Proof. destruct e; simpl; intros H; congruence. Qed.

Lemma or_None_not_empty (x : option string) : or_None x <> Some "".
Proof.
  destruct x as [s|]; simpl; [|discriminate].
  destruct (String.eqb s "") eqn:E; [discriminate|].
  apply String.eqb_neq in E. congruence.
Qed.

Lemma or_None_some (s : string) : s <> "" -> or_None (Some s) = Some s.
Proof.
  intros H. simpl. apply String.eqb_neq in H. rewrite H. reflexivity.
Qed.

(** A form that lacks a key raises [KeyError] before anything is called. *)
Lemma make_donation_without_amount stripe orm self db :
  cd_amount (cleaned_data self) = None ->
  make_donation stripe orm self db =
  {| result := Raised (KeyError "amount"); events := []; table := db |}.
Proof.
  intros H. unfold make_donation. rewrite H. apply bind_raise_l.
Qed.

(** Every run has one of the five shapes. *)
Lemma make_donation_Shape stripe orm self db :
  Shape db (make_donation stripe orm self db).
Proof.
  open_form self; unfold_run; split_answers;
    rewrite ?handler_surfaced; econstructor; reflexivity.
Qed.

(** ** The identifiers of a donation *)

(** The ids of the returned donation are the processor's, copied as they
    are: the charge's for a one-time donation, the subscription's for any
    other interval, and the empty string in the other field. *)
Lemma donation_ids stripe orm self db d :
  result (make_donation stripe orm self db) = Returned d ->
  exists interval,
    cd_interval (cleaned_data self) = Some interval /\
    if (interval =? "onetime")%string
    then Donation_stripe_subscription_id d = "" /\
         exists a cur cust em ch,
           In (EvChargeCreate a cur cust em (inr ch))
              (events (make_donation stripe orm self db)) /\
           Donation_stripe_charge_id d = Charge_id ch
    else Donation_stripe_charge_id d = "" /\
         exists cust plan q s,
           In (EvSubscriptionCreate cust plan q (inr s))
              (events (make_donation stripe orm self db)) /\
           Donation_stripe_subscription_id d = Subscription_id s.
Proof.
  run_cases self; intros H; try discriminate H;
    injection H as <-; exists iv; (split; [reflexivity|]);
    match goal with E : String.eqb _ _ = _ |- _ => rewrite E end;
    simpl; (split; [reflexivity|]); repeat eexists; simpl; eauto.
Qed.

(** C1: in a run that returns a donation, with the processor answering with
    ids that are not empty, exactly one of the donation's charge id and
    subscription id is not empty: the charge id when the interval is
    [onetime] (the subscription id is then the empty string), the
    subscription id for every other interval (the charge id is then the
    empty string). *)
Theorem exactly_one_id_by_interval stripe orm self db d :
  forallb answered_id_nonempty (events (make_donation stripe orm self db)) = true ->
  result (make_donation stripe orm self db) = Returned d ->
  exists interval,
    cd_interval (cleaned_data self) = Some interval /\
    (interval = "onetime" ->
       Donation_stripe_charge_id d <> "" /\
       Donation_stripe_subscription_id d = "") /\
    (interval <> "onetime" ->
       Donation_stripe_subscription_id d <> "" /\
       Donation_stripe_charge_id d = "").
Proof.
  intros Hids Hres.
  destruct (donation_ids _ _ _ _ _ Hres) as (iv & Hiv & Hd).
  exists iv. split; [exact Hiv|].
  rewrite forallb_forall in Hids.
  destruct (String.eqb iv "onetime") eqn:E; onetime_eq.
  - destruct Hd as (Hsub & a & cur & cust & em & ch & Hin & Hch).
    split; [|intros Hne; contradiction].
    intros _. split; [|exact Hsub].
    specialize (Hids _ Hin). simpl in Hids.
    rewrite Hch. intros Hempty. rewrite Hempty in Hids. discriminate Hids.
  - destruct Hd as (Hch & cust & plan & q & s & Hin & Hsub).
    split; [intros Heq; contradiction|].
    intros _. split; [|exact Hch].
    specialize (Hids _ Hin). simpl in Hids.
    rewrite Hsub. intros Hempty. rewrite Hempty in Hids. discriminate Hids.
Qed.

(** ** The amounts handed to the processor *)

(** C2: every charge call of a run carries [amount * 100] and the currency
    [usd], and is made for the interval [onetime]; every subscription call
    carries the amount itself as its quantity; the row handed to the ORM
    carries the amount itself.  A run makes at most one charge call.  Once
    the customer exists, the run makes exactly one more call to the
    processor: for the interval [onetime] the charge of [amount * 100] in
    [usd], for any other interval the subscription with the interval as
    plan and the amount itself as quantity. *)
Theorem amounts_passed_to_processor stripe orm self db amount :
  cd_amount (cleaned_data self) = Some amount ->
  (forall ev,
     In ev (events (make_donation stripe orm self db)) ->
     match ev with
     | EvChargeCreate a currency _ _ _ =>
         a = amount * 100 /\ currency = "usd" /\
         cd_interval (cleaned_data self) = Some "onetime"
     | EvSubscriptionCreate _ plan quantity _ =>
         quantity = amount /\
         cd_interval (cleaned_data self) = Some plan /\ plan <> "onetime"
     | EvDonationCreate params _ => Donation_amount params = amount
     | _ => True
     end) /\
  (length (filter is_charge_call (events (make_donation stripe orm self db)))
   <= 1)%nat /\
  (cd_interval (cleaned_data self) = Some "onetime" ->
   (2 <= length (events (make_donation stripe orm self db)))%nat ->
   length (filter is_charge_call (events (make_donation stripe orm self db)))
   = 1%nat) /\
  (forall tok c interval,
     In (EvCustomerCreate tok (inr c))
        (events (make_donation stripe orm self db)) ->
     cd_interval (cleaned_data self) = Some interval ->
     filter is_step2_call (events (make_donation stripe orm self db)) =
     if (interval =? "onetime")%string
     then [EvChargeCreate (amount * 100) "usd" (Customer_id c)
             (or_None (cd_receipt_email (cleaned_data self)))
             (api_Charge_create stripe (amount * 100) "usd" (Customer_id c)
                (or_None (cd_receipt_email (cleaned_data self))))]
     else [EvSubscriptionCreate (Customer_id c) interval amount
             (api_subscriptions_create stripe c interval amount)]).
Proof.
  intros Ham. split; [|split; [|split]].
  - intros ev. revert Ham.
    run_cases self; intros Ham Hin; simpl in Ham; try discriminate Ham;
      injection Ham as ->; onetime_eq; subst; simpl in Hin;
      repeat (destruct Hin as [<-|Hin]; [solve [auto]|]); contradiction.
  - run_cases self; simpl; lia.
  - revert Ham.
    run_cases self; intros Ham Hiv Hlen; simpl in *; onetime_eq;
      solve [lia | congruence].
  - revert Ham.
    run_cases self; simpl; intros Ham tok_ cus_ interval Hin Hiv;
      try discriminate Ham; try discriminate Hiv;
      injection Ham as ->; injection Hiv as <-;
      repeat (destruct Hin as [Hin|Hin]; try discriminate Hin);
      try contradiction; injection Hin as _ <-;
      match goal with E : String.eqb _ _ = _ |- _ => rewrite E end;
      repeat match goal with E : _ = _ |- _ => rewrite E end;
      reflexivity.
Qed.

(** ** Failures of the processor *)

(** A processor call answered with an exception ends the run: the caller
    sees [surfaced e], the table is as it was and the ORM was not called. *)
Lemma processor_error_ends_run stripe orm self db ev e :
  In ev (events (make_donation stripe orm self db)) ->
  processor_error ev = Some e ->
  result (make_donation stripe orm self db) = Raised (surfaced e) /\
  table (make_donation stripe orm self db) = db /\
  forallb (fun ev' => negb (is_donation_create ev'))
          (events (make_donation stripe orm self db)) = true.
Proof.
  intros Hin Herr.
  pose proof (make_donation_Shape stripe orm self db) as S.
  inversion S as [key Ho | tok e1 Ho | tok c ev2 e2 H2 He2 Ho
                 | tok c ev2 p e3 H2 He2 Ho | tok c ev2 p H2 He2 Ho];
    rewrite <- Ho in Hin; simpl in Hin |- *.
  - contradiction.
  - destruct Hin as [<-|[]]. simpl in Herr. injection Herr as ->. auto.
  - destruct Hin as [<-|[<-|[]]]; [discriminate Herr|].
    assert (e2 = e) as -> by congruence.
    destruct ev2; try discriminate H2; auto.
  - destruct Hin as [<-|[<-|[<-|[]]]]; try discriminate Herr; congruence.
  - destruct Hin as [<-|[<-|[<-|[]]]]; try discriminate Herr; congruence.
Qed.

(** C4: when a processor call is answered with a card error, the caller
    gets the [DonationError] whose message quotes [str(card_error)] as it
    came, the table of donations is unchanged and the ORM was not called. *)
Theorem card_declined_yields_message stripe orm self db ev reason :
  In ev (events (make_donation stripe orm self db)) ->
  processor_error ev = Some (CardError reason) ->
  result (make_donation stripe orm self db)
    = Raised (DonationError (card_error_message reason)) /\
  (exists before after_,
     card_error_message reason = before ++ reason ++ after_) /\
  table (make_donation stripe orm self db) = db /\
  forallb (fun ev' => negb (is_donation_create ev'))
          (events (make_donation stripe orm self db)) = true.
Proof.
  intros Hin Herr.
  destruct (processor_error_ends_run _ _ _ _ _ _ Hin Herr) as (Hr & Ht & Hn).
  repeat split; try assumption.
  exists ("We're sorry but we had problems charging your card. "
          ++ "Here is what Stripe replied: " ++ dquote), dquote.
  unfold card_error_message. rewrite !append_assoc. reflexivity.
Qed.

(** C5: when a processor call is answered with a connection error, the
    caller gets the [DonationError] whose message says that no charge was
    done and asks to try again later, the table of donations is unchanged
    and the ORM was not called. *)
Theorem connection_failure_yields_message stripe orm self db ev s :
  In ev (events (make_donation stripe orm self db)) ->
  processor_error ev = Some (APIConnectionError s) ->
  result (make_donation stripe orm self db)
    = Raised (DonationError connection_error_message) /\
  contains "No charge was done" connection_error_message = true /\
  contains "Please try again later" connection_error_message = true /\
  table (make_donation stripe orm self db) = db /\
  forallb (fun ev' => negb (is_donation_create ev'))
          (events (make_donation stripe orm self db)) = true.
Proof.
  intros Hin Herr.
  destruct (processor_error_ends_run _ _ _ _ _ _ Hin Herr) as (Hr & Ht & Hn).
  split; [exact Hr|].
  split; [vm_compute; reflexivity|].
  split; [vm_compute; reflexivity|].
  split; assumption.
Qed.

(** C6: when a processor call is answered with an authentication error, or
    with any exception other than a card, invalid-request or connection
    error, the caller gets that very exception, not a [DonationError] made
    by the handler; the table of donations is unchanged. *)
Theorem other_errors_propagate_unchanged stripe orm self db ev e :
  In ev (events (make_donation stripe orm self db)) ->
  processor_error ev = Some e ->
  user_facing e = false ->
  result (make_donation stripe orm self db) = Raised e /\
  table (make_donation stripe orm self db) = db.
Proof.
  intros Hin Herr Hclass.
  destruct (processor_error_ends_run _ _ _ _ _ _ Hin Herr) as (Hr & Ht & _).
  rewrite (surfaced_not_user_facing e Hclass) in Hr. split; assumption.
Qed.

(** ** Failure of the ORM *)

(** C3, as the code has it: when the creation of the row fails, after the
    customer and the charge or subscription were made, the caller gets the
    exception of the ORM as it came, no donation is stored, and the run
    writes no log record. *)
Theorem persistence_failure_propagates stripe orm self db params e :
  In (EvDonationCreate params (inl e))
     (events (make_donation stripe orm self db)) ->
  result (make_donation stripe orm self db) = Raised e /\
  table (make_donation stripe orm self db) = db /\
  forallb (fun ev => negb (is_log ev))
          (events (make_donation stripe orm self db)) = true /\
  exists tok c ev2,
    events (make_donation stripe orm self db)
      = [EvCustomerCreate tok (inr c); ev2; EvDonationCreate params (inl e)] /\
    is_step2_call ev2 = true /\ processor_error ev2 = None.
Proof.
  intros Hin.
  pose proof (make_donation_Shape stripe orm self db) as S.
  inversion S as [key Ho | tok e1 Ho | tok c ev2 e2 H2 He2 Ho
                 | tok c ev2 p e3 H2 He2 Ho | tok c ev2 p H2 He2 Ho];
    rewrite <- Ho in Hin; simpl in Hin |- *.
  - contradiction.
  - destruct Hin as [Hin|[]]; discriminate Hin.
  - destruct Hin as [Hin|[->|[]]]; [discriminate Hin|discriminate H2].
  - destruct Hin as [Hin|[->|[Hin|[]]]];
      [discriminate Hin|discriminate H2|].
    injection Hin as -> ->. simpl.
    repeat split.
    + destruct ev2; try discriminate H2; reflexivity.
    + exists tok, c, ev2. auto.
  - destruct Hin as [Hin|[->|[Hin|[]]]];
      [discriminate Hin|discriminate H2|discriminate Hin].
Qed.

(** ** The receipt email *)

(** C7, as the code has it: the receipt email of a charge call is never
    the empty string.  It is [None] when the form has no receipt email or
    an empty one, and the form's receipt email as it is otherwise, be it a
    well-formed address or not. *)
Theorem receipt_email_never_empty stripe orm self db a cur cust email r :
  In (EvChargeCreate a cur cust email r)
     (events (make_donation stripe orm self db)) ->
  email <> Some "" /\
  email = or_None (cd_receipt_email (cleaned_data self)) /\
  (cd_receipt_email (cleaned_data self) = None \/
   cd_receipt_email (cleaned_data self) = Some "" -> email = None) /\
  (forall s, cd_receipt_email (cleaned_data self) = Some s -> s <> "" ->
             email = Some s).
Proof.
  intros Hin.
  assert (email = or_None (cd_receipt_email (cleaned_data self))) as Heq.
  { revert Hin. run_cases self; simpl; intros Hin;
      repeat (destruct Hin as [Hin|Hin]; try discriminate Hin);
      try contradiction; injection Hin; intros; subst; reflexivity. }
  split; [rewrite Heq; apply or_None_not_empty|].
  split; [exact Heq|].
  split.
  - intros [H|H]; rewrite Heq, H; reflexivity.
  - intros s H Hs. rewrite Heq, H. apply or_None_some, Hs.
Qed.

(** C10: for an interval other than [onetime] the run makes no charge
    call, the one call that takes a receipt email; its subscription call
    carries the interval as plan and the amount as quantity; the processor
    calls are the same whatever the receipt email of the form; the receipt
    email is in the row handed to the ORM and in the donation returned. *)
Theorem recurring_email_stays_local stripe orm self db interval :
  cd_interval (cleaned_data self) = Some interval ->
  interval <> "onetime" ->
  (forall ev, In ev (events (make_donation stripe orm self db)) ->
     match ev with
     | EvChargeCreate _ _ _ _ _ => False
     | EvSubscriptionCreate _ plan quantity _ =>
         plan = interval /\ cd_amount (cleaned_data self) = Some quantity
     | EvDonationCreate params _ =>
         Donation_receipt_email params = cd_receipt_email (cleaned_data self)
     | _ => True
     end) /\
  (forall email,
     filter is_processor_call
       (events (make_donation stripe orm (with_receipt_email self email) db))
     = filter is_processor_call (events (make_donation stripe orm self db))) /\
  (forall d, result (make_donation stripe orm self db) = Returned d ->
     Donation_receipt_email d = cd_receipt_email (cleaned_data self)).
Proof.
  intros Hiv Hne. split; [|split].
  - intros ev. revert Hiv.
    run_cases self; simpl; intros Hiv Hin; try discriminate Hiv;
      injection Hiv as ->; onetime_eq; try contradiction;
      repeat (destruct Hin as [<-|Hin]; [solve [auto]|]); contradiction.
  - intros email. revert Hiv. unfold with_receipt_email.
    run_cases self; simpl; intros Hiv; try discriminate Hiv;
      injection Hiv as ->; onetime_eq; try contradiction; reflexivity.
  - intros d. revert Hiv.
    run_cases self; simpl; intros Hiv Hd; try discriminate Hiv;
      try discriminate Hd; injection Hiv as ->; onetime_eq;
      try contradiction; injection Hd as <-; reflexivity.
Qed.

(** ** No donation on failure *)

(** C9: a run in which a processor call was answered with an exception
    leaves the table of donations as it was and does not call the ORM; the
    ORM is called only as the third call of a run, after the customer was
    created and the charge or subscription was made, both without an
    exception; and whenever the run raises, the table is as it was. *)
Theorem no_donation_on_failure stripe orm self db :
  (forall ev e,
     In ev (events (make_donation stripe orm self db)) ->
     processor_error ev = Some e ->
     table (make_donation stripe orm self db) = db /\
     forallb (fun ev' => negb (is_donation_create ev'))
             (events (make_donation stripe orm self db)) = true) /\
  (forall params r,
     In (EvDonationCreate params r)
        (events (make_donation stripe orm self db)) ->
     exists tok c ev2,
       events (make_donation stripe orm self db)
         = [EvCustomerCreate tok (inr c); ev2; EvDonationCreate params r] /\
       is_step2_call ev2 = true /\ processor_error ev2 = None) /\
  (forall e,
     result (make_donation stripe orm self db) = Raised e ->
     table (make_donation stripe orm self db) = db).
Proof.
  split; [|split].
  - intros ev e Hin Herr.
    destruct (processor_error_ends_run _ _ _ _ _ _ Hin Herr) as (_ & Ht & Hn).
    split; assumption.
  - intros params r.
    destruct (make_donation_Shape stripe orm self db)
      as [key | tok e | tok c ev2 e H2 He | tok c ev2 p e H2 He
         | tok c ev2 p H2 He]; simpl; intros Hin.
    + contradiction.
    + destruct Hin as [Hin|[]]; discriminate Hin.
    + destruct Hin as [Hin|[->|[]]]; [discriminate Hin|discriminate H2].
    + destruct Hin as [Hin|[->|[Hin|[]]]];
        [discriminate Hin|discriminate H2|].
      injection Hin as -> <-. exists tok, c, ev2. auto.
    + destruct Hin as [Hin|[->|[Hin|[]]]];
        [discriminate Hin|discriminate H2|].
      injection Hin as -> <-. exists tok, c, ev2. auto.
  - intros e.
    destruct (make_donation_Shape stripe orm self db); simpl;
      intros Hres; try reflexivity; discriminate Hres.
Qed.

(** ** Validation *)

Section Validation.

Variable rt : FormsRuntime.

Lemma clean_amount_accepts (s : string) (z : Z) :
  s <> "" -> to_int rt s = Some z -> 1 <= z ->
  clean_amount rt (Some s) = inr z.
Proof.
  intros Hs Hz Hle. unfold clean_amount, is_empty_value.
  apply String.eqb_neq in Hs. rewrite Hs, Hz.
  destruct (z <? 1) eqn:L; [apply Z.ltb_lt in L; lia | reflexivity].
Qed.

Lemma clean_amount_rejects (value : option string) :
  (forall s z, value = Some s -> to_int rt s = Some z -> z < 1) ->
  exists err, clean_amount rt value = inl err.
Proof.
  intros H. destruct value as [s|]; [|simpl; eauto].
  unfold clean_amount.
  destruct (is_empty_value (Some s)); [eauto|].
  destruct (to_int rt s) as [z|] eqn:E; [|eauto].
  specialize (H s z eq_refl E).
  destruct (z <? 1) eqn:L; [eauto|].
  apply Z.ltb_ge in L. lia.
Qed.

Lemma clean_interval_accepts (s : string) :
  In s ["monthly"; "quarterly"; "yearly"; "onetime"] ->
  clean_interval (Some s) = inr s.
Proof.
  intros H. simpl in H.
  destruct H as [<-|[<-|[<-|[<-|[]]]]]; reflexivity.
Qed.

Lemma clean_interval_rejects (value : option string) :
  (forall s, value = Some s ->
             ~ In s ["monthly"; "quarterly"; "yearly"; "onetime"]) ->
  exists err, clean_interval value = inl err.
Proof.
  intros H. destruct value as [s|]; [|simpl; eauto].
  unfold clean_interval.
  destruct (is_empty_value (Some s)); [eauto|].
  destruct (existsb (String.eqb s) (map fst INTERVAL_CHOICES)) eqn:E;
    [|eauto].
  apply existsb_exists in E. destruct E as (x & Hin & Hx).
  apply String.eqb_eq in Hx. subst x.
  exfalso. exact (H s eq_refl Hin).
Qed.

(** A form whose amount was rejected is not valid, has no amount among its
    cleaned data, and [make_donation] on it stops at the first look-up. *)
Lemma rejected_amount_blocks (data : RawData) (err : ValidationError) :
  clean_amount rt (raw_amount data) = inl err ->
  is_valid (full_clean rt data) = false /\
  In "amount" (map fst (errors (full_clean rt data))) /\
  forall stripe orm db,
    make_donation stripe orm (full_clean rt data) db =
    {| result := Raised (KeyError "amount"); events := []; table := db |}.
Proof.
  intros H. unfold is_valid, full_clean. cbn [errors cleaned_data].
  rewrite H. cbn [field_errors app].
  split; [reflexivity|]. split; [simpl; left; reflexivity|].
  intros stripe orm db. apply make_donation_without_amount. reflexivity.
Qed.

(** C8: the cleaning of [amount] rejects, with a [ValidationError], every
    value that does not read as an integer of at least 1; the cleaning of
    [interval] rejects every value that is not one of [monthly],
    [quarterly], [yearly], [onetime]; a form submitted with the amount 0
    is not valid and [make_donation] on it raises before any call to the
    processor or to the ORM. *)
Theorem validation_rejects_bad_input :
  (forall value,
     (forall s z, value = Some s -> to_int rt s = Some z -> z < 1) ->
     exists err, clean_amount rt value = inl err) /\
  (forall value,
     (forall s, value = Some s ->
                ~ In s ["monthly"; "quarterly"; "yearly"; "onetime"]) ->
     exists err, clean_interval value = inl err) /\
  (forall data s,
     raw_amount data = Some s -> to_int rt s = Some 0 ->
     is_valid (full_clean rt data) = false /\
     In "amount" (map fst (errors (full_clean rt data))) /\
     forall stripe orm db,
       make_donation stripe orm (full_clean rt data) db =
       {| result := Raised (KeyError "amount"); events := [];
          table := db |}).
Proof.
  split; [exact clean_amount_rejects|].
  split; [exact clean_interval_rejects|].
  intros data s Hraw Hzero.
  destruct (clean_amount_rejects (raw_amount data)) as [err Herr].
  - intros s' z Hs' Hz. rewrite Hraw in Hs'. injection Hs' as <-.
    rewrite Hzero in Hz. injection Hz as <-. lia.
  - exact (rejected_amount_blocks data err Herr).
Qed.

End Validation.

(** * Concrete runs *)

(** The scenarios of the specification, run on the test doubles. *)

Example scenario_onetime :
  make_donation stripe_ok orm_ok (form_of (Some "") 25 "onetime") [] =
  {| result := Returned donation_25;
     events := [EvCustomerCreate "tok_valid" (inr {| Customer_id := "cus_1" |});
                charge_call_25 None (inr {| Charge_id := "ch_1" |});
                EvDonationCreate donation_25 (inr donation_25)];
     table := [donation_25] |}.
Proof. vm_compute. reflexivity. Qed.

Example scenario_card_declined :
  make_donation (stripe_failing_step2 card_declined) orm_ok
    (form_of (Some "") 25 "onetime") [] =
  {| result := Raised (DonationError
                         (card_error_message "Your card was declined."));
     events := [EvCustomerCreate "tok_valid" (inr {| Customer_id := "cus_1" |});
                charge_call_25 None (inl card_declined)];
     table := [] |}.
Proof. vm_compute. reflexivity. Qed.

Example scenario_monthly :
  make_donation stripe_ok orm_ok (form_of None 10 "monthly") [] =
  {| result := Returned donation_10;
     events := [EvCustomerCreate "tok_valid" (inr {| Customer_id := "cus_1" |});
                EvSubscriptionCreate "cus_1" "monthly" 10
                  (inr {| Subscription_id := "sub_1" |});
                EvDonationCreate donation_10 (inr donation_10)];
     table := [donation_10] |}.
Proof. vm_compute. reflexivity. Qed.

Example scenario_amount_zero :
  is_valid (full_clean forms_runtime (post "0" "onetime")) = false /\
  make_donation stripe_ok orm_ok
    (full_clean forms_runtime (post "0" "onetime")) [] =
  {| result := Raised (KeyError "amount"); events := []; table := [] |}.
Proof. split; vm_compute; reflexivity. Qed.

Example scenario_valid_post :
  is_valid (full_clean forms_runtime (post "25" "onetime")) = true /\
  cleaned_data (full_clean forms_runtime (post "25" "onetime")) =
  cleaned_data (form_of (Some "") 25 "onetime").
Proof. split; vm_compute; reflexivity. Qed.

Example scenario_bad_interval :
  clean_interval (Some "weekly") = inl (Invalid "invalid_choice") /\
  clean_amount forms_runtime (Some "-3") = inl (Invalid "min_value") /\
  clean_amount forms_runtime (Some "ten") = inl (Invalid "invalid").
Proof. repeat split; vm_compute; reflexivity. Qed.

(** C3, as the specification has it, fails: with the database down after a
    charge that went through, the caller gets the database's exception, not
    a [DonationError], and no log record was written. *)
Lemma persistence_failure_not_surfaced :
  ~ persistence_failure_surfaced
      (make_donation stripe_ok orm_down
         (form_of (Some "donor@example.org") 25 "onetime") []).
Proof.
  intros H.
  destruct (H {| Donation_amount := 25;
                 Donation_stripe_customer_id := "cus_1";
                 Donation_stripe_charge_id := "ch_1";
                 Donation_stripe_subscription_id := "";
                 Donation_receipt_email := Some "donor@example.org";
                 Donation_campaign := None |}
              (Exception "database is down")) as [[msg Hmsg] _].
  - vm_compute. right. right. left. reflexivity.
  - vm_compute in Hmsg. discriminate Hmsg.
Qed.

Lemma exactly_one_id_by_interval_witness :
  forallb answered_id_nonempty
    (events (make_donation stripe_ok orm_ok
               (form_of (Some "") 25 "onetime") [])) = true /\
  exists interval,
    cd_interval (cleaned_data (form_of (Some "") 25 "onetime"))
      = Some interval /\
    (interval = "onetime" ->
       Donation_stripe_charge_id donation_25 <> "" /\
       Donation_stripe_subscription_id donation_25 = "") /\
    (interval <> "onetime" ->
       Donation_stripe_subscription_id donation_25 <> "" /\
       Donation_stripe_charge_id donation_25 = "").
Proof.
  split; [vm_compute; reflexivity|].
  apply (exactly_one_id_by_interval stripe_ok orm_ok
           (form_of (Some "") 25 "onetime") [] donation_25);
    vm_compute; reflexivity.
Defined.

Lemma amounts_passed_to_processor_witness :
  filter is_step2_call
    (events (make_donation stripe_ok orm_ok
               (form_of (Some "") 25 "onetime") []))
  = [charge_call_25 None (inr {| Charge_id := "ch_1" |})] /\
  filter is_step2_call
    (events (make_donation stripe_ok orm_ok (form_of None 10 "monthly") []))
  = [EvSubscriptionCreate "cus_1" "monthly" 10
       (inr {| Subscription_id := "sub_1" |})].
Proof.
  split.
  - refine (proj2 (proj2 (proj2
              (amounts_passed_to_processor stripe_ok orm_ok
                 (form_of (Some "") 25 "onetime") [] 25 eq_refl)))
              "tok_valid" {| Customer_id := "cus_1" |} "onetime" _ eq_refl).
    vm_compute. left. reflexivity.
  - refine (proj2 (proj2 (proj2
              (amounts_passed_to_processor stripe_ok orm_ok
                 (form_of None 10 "monthly") [] 10 eq_refl)))
              "tok_valid" {| Customer_id := "cus_1" |} "monthly" _ eq_refl).
    vm_compute. left. reflexivity.
Defined.

Lemma persistence_failure_propagates_witness :
  result (make_donation stripe_ok orm_down
            (form_of (Some "") 25 "onetime") [])
    = Raised (Exception "database is down") /\
  table (make_donation stripe_ok orm_down
           (form_of (Some "") 25 "onetime") []) = [].
Proof.
  assert (In (EvDonationCreate donation_25 (inl (Exception "database is down")))
            (events (make_donation stripe_ok orm_down
                       (form_of (Some "") 25 "onetime") []))) as Hin
    by (vm_compute; right; right; left; reflexivity).
  destruct (persistence_failure_propagates stripe_ok orm_down
              (form_of (Some "") 25 "onetime") [] _ _ Hin) as (Hr & Ht & _).
  split; assumption.
Defined.

Lemma card_declined_yields_message_witness :
  processor_error (charge_call_25 None (inl card_declined))
    = Some card_declined /\
  result (make_donation (stripe_failing_step2 card_declined) orm_ok
            (form_of (Some "") 25 "onetime") [])
    = Raised (DonationError (card_error_message "Your card was declined.")).
Proof.
  assert (In (charge_call_25 None (inl card_declined))
            (events (make_donation (stripe_failing_step2 card_declined) orm_ok
                       (form_of (Some "") 25 "onetime") []))) as Hin
    by (vm_compute; right; left; reflexivity).
  split; [reflexivity|].
  exact (proj1 (card_declined_yields_message
                  (stripe_failing_step2 card_declined) orm_ok
                  (form_of (Some "") 25 "onetime") [] _
                  "Your card was declined." Hin eq_refl)).
Defined.

Lemma connection_failure_yields_message_witness :
  processor_error (EvCustomerCreate "tok_valid" (inl connection_refused))
    = Some connection_refused /\
  result (make_donation (stripe_failing_step1 connection_refused) orm_ok
            (form_of None 10 "monthly") [])
    = Raised (DonationError connection_error_message).
Proof.
  assert (In (EvCustomerCreate "tok_valid" (inl connection_refused))
            (events (make_donation (stripe_failing_step1 connection_refused)
                       orm_ok (form_of None 10 "monthly") []))) as Hin
    by (vm_compute; left; reflexivity).
  split; [reflexivity|].
  exact (proj1 (connection_failure_yields_message
                  (stripe_failing_step1 connection_refused) orm_ok
                  (form_of None 10 "monthly") [] _
                  "Connection refused" Hin eq_refl)).
Defined.

Lemma other_errors_propagate_unchanged_witness :
  user_facing invalid_api_key = false /\
  result (make_donation (stripe_failing_step2 invalid_api_key) orm_ok
            (form_of None 10 "monthly") [])
    = Raised invalid_api_key.
Proof.
  assert (In (EvSubscriptionCreate "cus_1" "monthly" 10 (inl invalid_api_key))
            (events (make_donation (stripe_failing_step2 invalid_api_key)
                       orm_ok (form_of None 10 "monthly") []))) as Hin
    by (vm_compute; right; left; reflexivity).
  split; [reflexivity|].
  exact (proj1 (other_errors_propagate_unchanged
                  (stripe_failing_step2 invalid_api_key) orm_ok
                  (form_of None 10 "monthly") [] _ invalid_api_key
                  Hin eq_refl eq_refl)).
Defined.

Example well_formed_address_examples :
  well_formed_address "donor@example.org" = true /\
  well_formed_address " " = false /\
  well_formed_address "not-an-address" = false.
Proof. repeat split; vm_compute; reflexivity. Qed.

(** C7, as the specification has it, fails: a receipt email of one blank,
    and one that is no address, reach the charge call as they are. *)
Lemma receipt_email_not_always_well_formed :
  ~ receipt_email_well_formed_or_none
      (make_donation stripe_ok orm_ok (form_of (Some " ") 25 "onetime") []) /\
  ~ receipt_email_well_formed_or_none
      (make_donation stripe_ok orm_ok
         (form_of (Some "not-an-address") 25 "onetime") []).
Proof.
  split; intros H.
  - destruct (H 2500 "usd" "cus_1" (Some " ") (inr {| Charge_id := "ch_1" |}))
      as [Hnone|(s & Hs & Hwf)].
    + vm_compute. right. left. reflexivity.
    + discriminate Hnone.
    + injection Hs as <-. vm_compute in Hwf. discriminate Hwf.
  - destruct (H 2500 "usd" "cus_1" (Some "not-an-address")
                (inr {| Charge_id := "ch_1" |}))
      as [Hnone|(s & Hs & Hwf)].
    + vm_compute. right. left. reflexivity.
    + discriminate Hnone.
    + injection Hs as <-. vm_compute in Hwf. discriminate Hwf.
Qed.

Lemma receipt_email_never_empty_witness :
  In (charge_call_25 None (inr {| Charge_id := "ch_1" |}))
     (events (make_donation stripe_ok orm_ok
                (form_of (Some "") 25 "onetime") [])) /\
  @None string <> Some "".
Proof.
  assert (In (charge_call_25 None (inr {| Charge_id := "ch_1" |}))
            (events (make_donation stripe_ok orm_ok
                       (form_of (Some "") 25 "onetime") []))) as Hin
    by (vm_compute; right; left; reflexivity).
  split; [exact Hin|].
  exact (proj1 (receipt_email_never_empty stripe_ok orm_ok
                  (form_of (Some "") 25 "onetime") [] _ _ _ _ _ Hin)).
Defined.

Lemma recurring_email_stays_local_witness :
  "monthly" <> "onetime" /\
  forall email,
    filter is_processor_call
      (events (make_donation stripe_ok orm_ok
                 (with_receipt_email
                    (form_of (Some "donor@example.org") 10 "monthly") email)
                 []))
    = filter is_processor_call
        (events (make_donation stripe_ok orm_ok
                   (form_of (Some "donor@example.org") 10 "monthly") [])).
Proof.
  assert ("monthly" <> "onetime") as Hne
    by (apply String.eqb_neq; vm_compute; reflexivity).
  split; [exact Hne|].
  exact (proj1 (proj2 (recurring_email_stays_local stripe_ok orm_ok
                         (form_of (Some "donor@example.org") 10 "monthly") []
                         "monthly" eq_refl Hne))).
Defined.

(** * More on [make_donation] *)


(** X1: When a processor call is answered with an invalid-request error, the
    caller gets the [DonationError] with the fixed message that says no
    charge was done; the table of donations is unchanged and the ORM was
    not called. *)
Theorem invalid_request_yields_message stripe orm self db ev s :
  In ev (events (make_donation stripe orm self db)) ->
  processor_error ev = Some (InvalidRequestError s) ->
  result (make_donation stripe orm self db)
    = Raised (DonationError invalid_request_message) /\
  contains "No charge was done" invalid_request_message = true /\
  table (make_donation stripe orm self db) = db /\
  forallb (fun ev' => negb (is_donation_create ev'))
          (events (make_donation stripe orm self db)) = true.
Proof.
  intros Hin Herr.
  destruct (processor_error_ends_run _ _ _ _ _ _ Hin Herr) as (Hr & Ht & Hn).
  split; [exact Hr|]. split; [vm_compute; reflexivity|]. split; assumption.
Qed.

(** X2: A form that lacks one of the keys [amount], [campaign], [stripe_token],
    [interval] makes [make_donation] raise the [KeyError] of the first one
    missing, in that order, before any call: no event, the table as it
    was.  The receipt email is not among them. *)
Theorem missing_key_raises_first stripe orm self db key :
  first_missing_key (cleaned_data self) = Some key ->
  make_donation stripe orm self db =
  {| result := Raised (KeyError key); events := []; table := db |}.
Proof.
  open_form self; unfold first_missing_key; simpl; intros H;
    try discriminate H; injection H as <-; reflexivity.
Qed.

(** X3: The row handed to the ORM carries the form's amount, its receipt email
    as it is (an empty one stays an empty string), its campaign, and the id
    of the customer the processor answered with in this run. *)
Theorem stored_row_copies_form stripe orm self db params r :
  In (EvDonationCreate params r) (events (make_donation stripe orm self db)) ->
  cd_amount (cleaned_data self) = Some (Donation_amount params) /\
  Donation_receipt_email params = cd_receipt_email (cleaned_data self) /\
  cd_campaign (cleaned_data self) = Some (Donation_campaign params) /\
  exists tok c,
    In (EvCustomerCreate tok (inr c))
       (events (make_donation stripe orm self db)) /\
    Donation_stripe_customer_id params = Customer_id c.
Proof.
  run_cases self; simpl; intros Hin;
    repeat (destruct Hin as [Hin|Hin]; try discriminate Hin);
    try contradiction; injection Hin as <- _;
    simpl; repeat split; eauto.
Qed.

(** X4: A run that returns a donation made exactly three calls, the creation
    of the customer, the charge or subscription, and the creation of the
    row, all without an exception, and added the returned donation, and
    nothing else, at the end of the table. *)
Theorem success_appends_one_row stripe orm self db d :
  result (make_donation stripe orm self db) = Returned d ->
  table (make_donation stripe orm self db) = (db ++ [d])%list /\
  exists tok c ev2,
    events (make_donation stripe orm self db)
      = [EvCustomerCreate tok (inr c); ev2; EvDonationCreate d (inr d)] /\
    is_step2_call ev2 = true /\ processor_error ev2 = None.
Proof.
  destruct (make_donation_Shape stripe orm self db)
    as [key | tok e | tok c ev2 e H2 He | tok c ev2 p e H2 He
       | tok c ev2 p H2 He]; simpl; intros Hres; try discriminate Hres.
  injection Hres as ->. split; [reflexivity|]. exists tok, c, ev2. auto.
Qed.

(** X5: A run that makes any call starts with the creation of the customer
    from the form's token and creates no second customer; the charge or
    subscription that follows is made for the id of the customer that call
    answered with. *)
Theorem customer_first_then_chained stripe orm self db :
  events (make_donation stripe orm self db) = [] \/
  exists tok r rest,
    cd_stripe_token (cleaned_data self) = Some tok /\
    events (make_donation stripe orm self db) = EvCustomerCreate tok r :: rest /\
    forallb (fun ev => negb (is_customer_call ev)) rest = true /\
    forall ev cust,
      In ev rest -> step2_customer ev = Some cust ->
      exists c, r = inr c /\ cust = Customer_id c.
Proof.
  run_cases self; simpl; try (left; reflexivity); right;
    do 3 eexists; (split; [reflexivity|]); (split; [reflexivity|]);
    (split; [reflexivity|]); intros ev cust Hin Hc;
    repeat (destruct Hin as [<-|Hin]; [simpl in Hc; try discriminate Hc|]);
    try contradiction; injection Hc as <-; eauto.
Qed.

(** X6: No call is made twice and nothing is retried: a run has at most three
    events, at most one charge or subscription call (never both), an
    exception of the processor is the answer to the last call of the run,
    and the table keeps its rows and gains at most one. *)
Theorem no_retry_no_second_call stripe orm self db :
  (length (events (make_donation stripe orm self db)) <= 3)%nat /\
  (length (filter is_step2_call (events (make_donation stripe orm self db)))
   <= 1)%nat /\
  (forall pre ev post e,
     events (make_donation stripe orm self db) = (pre ++ ev :: post)%list ->
     processor_error ev = Some e -> post = []) /\
  exists rows,
    table (make_donation stripe orm self db) = (db ++ rows)%list /\
    (length rows <= 1)%nat.
Proof.
  destruct (make_donation_Shape stripe orm self db)
    as [key | tok e | tok c ev2 e H2 He | tok c ev2 p e H2 He
       | tok c ev2 p H2 He]; simpl; try rewrite H2; simpl.
  all: split; [lia|]; split; [lia|]; split;
    [|first [ exists []; rewrite app_nil_r; split; [reflexivity|simpl; lia]
            | eexists [_]; split; [reflexivity|simpl; lia] ]].
  all: intros pre ev post e' Hev Herr.
  - destruct pre; discriminate Hev.
  - destruct pre as [|? [|? ?]]; try discriminate Hev.
    injection Hev as _ <-. reflexivity.
  - destruct pre as [|? [|? [|? ?]]]; try discriminate Hev.
    + injection Hev as <- _. discriminate Herr.
    + injection Hev as _ _ <-. reflexivity.
  - destruct pre as [|? [|? [|? [|? ?]]]]; try discriminate Hev.
    + injection Hev as <- _. discriminate Herr.
    + injection Hev as _ <- _. congruence.
    + injection Hev as _ _ _ <-. reflexivity.
  - destruct pre as [|? [|? [|? [|? ?]]]]; try discriminate Hev.
    + injection Hev as <- _. discriminate Herr.
    + injection Hev as _ <- _. congruence.
    + injection Hev as _ _ _ <-. reflexivity.
Qed.

(** X7: Every exception [make_donation] raises has one of three origins: a
    key missing from the form, before any call; an exception of the
    processor, passed through the handler; or the exception of the ORM. *)
Theorem raised_exception_origin stripe orm self db e :
  result (make_donation stripe orm self db) = Raised e ->
  (exists key, e = KeyError key /\
               events (make_donation stripe orm self db) = []) \/
  (exists ev e', In ev (events (make_donation stripe orm self db)) /\
                 processor_error ev = Some e' /\ e = surfaced e') \/
  (exists params, In (EvDonationCreate params (inl e))
                     (events (make_donation stripe orm self db))).
Proof.
  destruct (make_donation_Shape stripe orm self db)
    as [key | tok e1 | tok c ev2 e1 H2 He | tok c ev2 p e1 H2 He
       | tok c ev2 p H2 He]; simpl; intros Hres; try discriminate Hres;
    injection Hres as <-.
  - left. eauto.
  - right. left. exists (EvCustomerCreate tok (inl e1)), e1. simpl. auto.
  - right. left. exists ev2, e1. simpl. auto.
  - right. right. exists p. simpl. auto.
Qed.

(** ** From a valid form to the calls *)

Section ValidForm.

Variable rt : FormsRuntime.






End ValidForm.

(** * [DjangoHeroForm.__init__] *)

Section InitLoop.

Variable Field : Type.
Variable is_checkbox : Field -> bool.
Variable is_radio : Field -> bool.

(** The loop adds to the lists it was given: the invariant of the loop. *)
Lemma init_loop_appends (items : list (string * Field))
    (checkbox radio : list string) :
  DjangoHeroForm_init_loop Field is_checkbox is_radio items checkbox radio =
  ((checkbox ++ checkbox_items Field is_checkbox items)%list,
   (radio ++ radio_items Field is_checkbox is_radio items)%list).
Proof.
  revert checkbox radio.
  induction items as [|[name field] items IH]; intros checkbox radio.
  - simpl. rewrite !app_nil_r. reflexivity.
  - unfold checkbox_items, radio_items in *. simpl.
    destruct (is_checkbox field); simpl.
    + rewrite IH, <- app_assoc. reflexivity.
    + destruct (is_radio field); simpl; rewrite IH.
      * rewrite <- app_assoc. reflexivity.
      * reflexivity.
Qed.

(** X9: [checkbox_fields] lists, in the order of the fields, the names of the
    fields whose widget is a [CheckboxInput]; [radio_select_fields], the
    names of those whose widget is a [RadioSelect] and not a
    [CheckboxInput]. *)
Theorem init_lists_fields_by_widget (fields : list (string * Field)) :
  DjangoHeroForm_init Field is_checkbox is_radio fields =
  (checkbox_items Field is_checkbox fields,
   radio_items Field is_checkbox is_radio fields).
Proof.
  unfold DjangoHeroForm_init. rewrite init_loop_appends. reflexivity.
Qed.

Lemma NoDup_map_fst_filter (f : string * Field -> bool)
    (items : list (string * Field)) :
  NoDup (map fst items) -> NoDup (map fst (filter f items)).
Proof.
  induction items as [|[name field] items IH]; simpl; intros H.
  - constructor.
  - inversion H as [|? ? Hnot Hrest]; subst.
    destruct (f (name, field)); simpl; [|auto].
    constructor; [|auto].
    intros Hin. apply Hnot.
    apply in_map_iff in Hin. destruct Hin as (item & Hfst & Hin).
    apply filter_In in Hin. apply in_map_iff. exists item. tauto.
Qed.

(** X10: The names of a form's fields being distinct, no name is twice in a
    list and no name is in both lists; every name of the lists is the name
    of a field. *)
Theorem init_lists_disjoint (fields : list (string * Field)) :
  NoDup (map fst fields) ->
  let lists := DjangoHeroForm_init Field is_checkbox is_radio fields in
  NoDup (fst lists) /\ NoDup (snd lists) /\
  (forall name, In name (fst lists) -> ~ In name (snd lists)) /\
  (forall name, In name (fst lists) \/ In name (snd lists) ->
                In name (map fst fields)).
Proof.
  intros Hnames. unfold DjangoHeroForm_init.
  rewrite init_loop_appends. simpl.
  unfold checkbox_items, radio_items.
  split; [apply NoDup_map_fst_filter, Hnames|].
  split; [apply NoDup_map_fst_filter, Hnames|].
  split.
  - induction fields as [|[name field] fields IH]; simpl; [tauto|].
    inversion Hnames as [|? ? Hnot Hrest]; subst.
    intros n. destruct (is_checkbox field) eqn:Ec; simpl.
    + intros [<-|Hin] Hr.
      * apply Hnot. apply in_map_iff in Hr.
        destruct Hr as (item & Hfst & Hr). apply filter_In in Hr.
        apply in_map_iff. exists item. tauto.
      * exact (IH Hrest n Hin Hr).
    + destruct (is_radio field); simpl.
      * intros Hin [<-|Hr]; [|exact (IH Hrest n Hin Hr)].
        apply Hnot. apply in_map_iff in Hin.
        destruct Hin as (item & Hfst & Hin). apply filter_In in Hin.
        apply in_map_iff. exists item. tauto.
      * exact (IH Hrest n).
  - intros n [Hin|Hin]; apply in_map_iff in Hin;
      destruct Hin as (item & Hfst & Hin); apply filter_In in Hin;
      apply in_map_iff; exists item; tauto.
Qed.

End InitLoop.

(** * [StripeTextInput] *)

(** ** Dicts *)

Lemma dict_get_set_same {V} (key : string) (value : V) (d : dict V) :
  dict_get key (dict_set key value d) = Some value.
Proof.
  induction d as [|[k v] d IH]; simpl.
  - rewrite String.eqb_refl. reflexivity.
  - destruct (String.eqb_spec k key) as [->|Hne]; simpl.
    + rewrite String.eqb_refl. reflexivity.
    + apply String.eqb_neq in Hne. rewrite Hne. exact IH.
Qed.

Lemma dict_get_set_other {V} (key key' : string) (value : V) (d : dict V) :
  key' <> key -> dict_get key' (dict_set key value d) = dict_get key' d.
Proof.
  intros Hne. induction d as [|[k v] d IH]; simpl.
  - destruct (String.eqb_spec key key') as [E|_]; [congruence|reflexivity].
  - destruct (String.eqb_spec k key) as [->|Hk]; simpl.
    + destruct (String.eqb_spec key key') as [E|_]; [congruence|reflexivity].
    + destruct (String.eqb_spec k key'); [reflexivity|exact IH].
Qed.

Lemma dict_set_set {V} (key : string) (v1 v2 : V) (d : dict V) :
  dict_set key v2 (dict_set key v1 d) = dict_set key v2 d.
Proof.
  induction d as [|[k v] d IH]; simpl.
  - rewrite String.eqb_refl. reflexivity.
  - destruct (String.eqb_spec k key) as [->|Hne]; simpl.
    + rewrite String.eqb_refl. reflexivity.
    + apply String.eqb_neq in Hne. rewrite Hne, IH. reflexivity.
Qed.

(** What [setdefault] leaves under ['attrs'] when the update goes
    through: the dict the caller gave, or a new, empty one. *)
Lemma add_data_stripe_attr_inr (name : string) (kwargs kwargs' : dict kwarg) :
  _add_data_stripe_attr name kwargs = inr kwargs' ->
  exists attrs,
    (dict_get "attrs" kwargs = Some (KwAttrs attrs) \/
     dict_get "attrs" kwargs = None /\ attrs = []) /\
    kwargs' =
      dict_set "attrs" (KwAttrs (dict_set "data-stripe" name attrs)) kwargs.
Proof.
  unfold _add_data_stripe_attr.
  destruct (dict_get "attrs" kwargs) as [[attrs| |other]|] eqn:E.
  - rewrite E. intros H. injection H as <-. exists attrs. auto.
  - rewrite E. discriminate.
  - rewrite E. discriminate.
  - rewrite dict_get_set_same. intros H. injection H as <-.
    exists []. rewrite dict_set_set. auto.
Qed.

(** X11: After [_add_data_stripe_attr] the attributes hold [name] under
    ['data-stripe'], whatever they held there before; every other
    attribute, and every other keyword argument, is as it was. *)
Theorem add_data_stripe_attr_sets (name : string) (kwargs kwargs' : dict kwarg) :
  _add_data_stripe_attr name kwargs = inr kwargs' ->
  exists attrs',
    dict_get "attrs" kwargs' = Some (KwAttrs attrs') /\
    dict_get "data-stripe" attrs' = Some name /\
    (forall k, k <> "data-stripe" ->
       dict_get k attrs' =
       match dict_get "attrs" kwargs with
       | Some (KwAttrs attrs) => dict_get k attrs
       | _ => None
       end) /\
    (forall k, k <> "attrs" -> dict_get k kwargs' = dict_get k kwargs).
Proof.
  intros H. destruct (add_data_stripe_attr_inr _ _ _ H) as (attrs & Hold & ->).
  exists (dict_set "data-stripe" name attrs).
  split; [apply dict_get_set_same|].
  split; [apply dict_get_set_same|].
  split.
  - intros k Hk. rewrite (dict_get_set_other _ _ _ _ Hk).
    destruct Hold as [->|[-> ->]]; reflexivity.
  - intros k Hk. apply dict_get_set_other, Hk.
Qed.

(** X12: with the attributes passed as [render] declares them, a dict
    or [None] when they are passed at all, [_add_data_stripe_attr] raises,
    an [AttributeError] for [update], when and only when the caller passed
    [None] for them. *)
Theorem add_data_stripe_attr_fails (name : string) (kwargs : dict kwarg) :
  (forall repr, dict_get "attrs" kwargs <> Some (KwOther repr)) ->
  (_add_data_stripe_attr name kwargs = inl (NoAttribute "update") <->
   dict_get "attrs" kwargs = Some KwNone) /\
  (dict_get "attrs" kwargs <> Some KwNone ->
   exists kwargs', _add_data_stripe_attr name kwargs = inr kwargs').
Proof.
  intros Htyped. unfold _add_data_stripe_attr.
  destruct (dict_get "attrs" kwargs) as [[attrs| |other]|] eqn:E.
  - rewrite E. split; [split; discriminate|]. intros _. eauto.
  - rewrite E. split; [split; reflexivity|]. intros H. destruct (H eq_refl).
  - destruct (Htyped other eq_refl).
  - rewrite dict_get_set_same. split; [split; discriminate|]. intros _. eauto.
Qed.

(** X13: A second call with the same name changes nothing; the keys of the
    keyword arguments keep their order, with ['attrs'] added at the end
    when it was not there. *)
Theorem add_data_stripe_attr_idempotent (name : string)
    (kwargs kwargs' : dict kwarg) :
  _add_data_stripe_attr name kwargs = inr kwargs' ->
  _add_data_stripe_attr name kwargs' = inr kwargs' /\
  dict_keys kwargs' =
    (dict_keys kwargs ++
     match dict_get "attrs" kwargs with Some _ => [] | None => ["attrs"] end)%list.
Proof.
  intros H. destruct (add_data_stripe_attr_inr _ _ _ H) as (attrs & Hold & ->).
  split.
  - unfold _add_data_stripe_attr. rewrite !dict_get_set_same.
    rewrite !dict_set_set. reflexivity.
  - assert (forall (v : kwarg) (d : dict kwarg),
              dict_keys (dict_set "attrs" v d) =
              (dict_keys d ++
               match dict_get "attrs" d with
               | Some _ => [] | None => ["attrs"] end)%list) as Hkeys.
    { intros v d. induction d as [|[k w] d IH]; simpl; [reflexivity|].
      destruct (String.eqb_spec k "attrs") as [->|Hne]; simpl.
      - rewrite app_nil_r. reflexivity.
      - rewrite <- IH. reflexivity. }
    apply Hkeys.
Qed.

(** ** [str.replace] and [_strip_name_attr] *)

Lemma append_cons (c : ascii) (a b : string) :
  String c a ++ b = String c (a ++ b).
Proof. reflexivity. Qed.

Lemma append_nil_l (s : string) : EmptyString ++ s = s.
Proof. reflexivity. Qed.

Lemma prefix_append (p s : string) : String.prefix p (p ++ s) = true.
Proof.
  induction p as [|c p IH]; [rewrite append_nil_l; destruct s; reflexivity|].
  rewrite append_cons. cbn [String.prefix].
  destruct (ascii_dec c c) as [_|Hne]; [exact IH|contradiction].
Qed.

Lemma contains_cons (sub : string) (c : ascii) (s : string) :
  contains sub (String c s) = false ->
  String.prefix sub (String c s) = false /\ contains sub s = false.
Proof.
  change (contains sub (String c s))
    with (if String.prefix sub (String c s) then true else contains sub s).
  destruct (String.prefix sub (String c s)); [discriminate|auto].
Qed.

Lemma replace_from_absent (old new s : string) :
  contains old s = false -> replace_from old new 0 s = s.
Proof.
  induction s as [|c s IH]; intros H; [reflexivity|].
  apply contains_cons in H. destruct H as (Hp & Hs).
  cbn [replace_from]. rewrite Hp, (IH Hs). reflexivity.
Qed.

Lemma replace_from_skip (old new p s : string) :
  replace_from old new (String.length p) (p ++ s) = replace_from old new 0 s.
Proof.
  induction p as [|c p IH]; [reflexivity|].
  rewrite append_cons. cbn [replace_from String.length]. exact IH.
Qed.

Lemma str_replace_single (c : ascii) (p a b : string) :
  starts_none (String c p) a (String c p ++ b) = true ->
  contains (String c p) b = false ->
  str_replace (String c p) "" (a ++ String c p ++ b) = a ++ b.
Proof.
  intros Ha Hb. unfold str_replace.
  induction a as [|x a IH].
  - rewrite !append_nil_l.
    pose proof (prefix_append (String c p) b) as Hp.
    rewrite append_cons in Hp |- *.
    cbn [replace_from]. rewrite Hp. rewrite append_nil_l.
    cbn [String.length]. rewrite Nat.sub_1_r. cbn [Nat.pred].
    rewrite replace_from_skip. apply replace_from_absent, Hb.
  - cbn [starts_none] in Ha. apply andb_true_iff in Ha.
    destruct Ha as (Hx & Ha). apply negb_true_iff in Hx.
    rewrite (append_cons x a) in Hx |- *. rewrite (append_cons x a b).
    cbn [replace_from]. rewrite Hx, (IH Ha). reflexivity.
Qed.

Lemma name_attr_cons (name : string) :
  name_attr name = String "n" ("ame=" ++ dquote ++ name ++ dquote).
Proof. reflexivity. Qed.

(** X14: A widget string without the name attribute is left as it is. *)
Theorem strip_name_attr_absent (widget_string name : string) :
  contains (name_attr name) widget_string = false ->
  _strip_name_attr widget_string name = widget_string.
Proof.
  intros H. unfold _strip_name_attr, str_replace.
  apply replace_from_absent, H.
Qed.

(** X15: A widget string with the name attribute once loses it, and nothing
    else: what stood before and after it is joined. *)
Theorem strip_name_attr_removes (name a b : string) :
  starts_none (name_attr name) a (name_attr name ++ b) = true ->
  contains (name_attr name) b = false ->
  _strip_name_attr (a ++ name_attr name ++ b) name = a ++ b.
Proof.
  unfold _strip_name_attr. rewrite name_attr_cons.
  apply str_replace_single.
Qed.

(** ** [render] *)

(** X16: When the parent's [render] writes the name attribute once, [render]
    gives the parent's output without it, the parent having been called
    with [name] under ['data-stripe'] in its attributes. *)
Theorem render_strips_name (Args : Type)
    (super_render : string -> Args -> dict kwarg -> string)
    (name : string) (args : Args) (kwargs kwargs' : dict kwarg)
    (a b : string) :
  _add_data_stripe_attr name kwargs = inr kwargs' ->
  super_render name args kwargs' = a ++ name_attr name ++ b ->
  starts_none (name_attr name) a (name_attr name ++ b) = true ->
  contains (name_attr name) b = false ->
  render Args super_render name args kwargs = inr (a ++ b) /\
  exists attrs',
    dict_get "attrs" kwargs' = Some (KwAttrs attrs') /\
    dict_get "data-stripe" attrs' = Some name.
Proof.
  intros Hadd Hsuper Ha Hb. split.
  - unfold render, mark_safe. rewrite Hadd, Hsuper.
    unfold _strip_name_attr. rewrite name_attr_cons in Ha, Hb |- *.
    rewrite (str_replace_single _ _ a b Ha Hb). reflexivity.
  - destruct (add_data_stripe_attr_inr _ _ _ Hadd) as (attrs & _ & ->).
    exists (dict_set "data-stripe" name attrs).
    split; apply dict_get_set_same.
Qed.

(** * More concrete runs *)

Example DjangoHeroForm_init_lists :
  DjangoHeroForm_init _ is_CheckboxInput is_RadioSelect DjangoHeroForm_fields
  = (["is_visible"; "is_amount_displayed"; "is_subscribed"], ["hero_type"]).
Proof. reflexivity. Qed.

Example render_number :
  render unit input_tag "number" tt number_kwargs
  = inr (input_open ++ input_rest).
Proof. vm_compute. reflexivity. Qed.

Example render_attrs_None :
  render unit input_tag "number" tt [("attrs", KwNone)]
  = inl (NoAttribute "update").
Proof. reflexivity. Qed.

(** Removing an occurrence can bring the two sides of it together into a
    new one, which stays: [str.replace] makes one pass. *)
Example strip_name_attr_one_pass :
  _strip_name_attr ("na" ++ name_attr "x" ++ "me=" ++ dquote ++ "x" ++ dquote)
                   "x"
  = name_attr "x".
Proof. vm_compute. reflexivity. Qed.

Lemma invalid_request_yields_message_witness :
  processor_error (EvSubscriptionCreate "cus_1" "monthly" 10 (inl no_such_plan))
    = Some no_such_plan /\
  result (make_donation (stripe_failing_step2 no_such_plan) orm_ok
            (form_of None 10 "monthly") [])
    = Raised (DonationError invalid_request_message).
Proof.
  assert (In (EvSubscriptionCreate "cus_1" "monthly" 10 (inl no_such_plan))
            (events (make_donation (stripe_failing_step2 no_such_plan) orm_ok
                       (form_of None 10 "monthly") []))) as Hin
    by (vm_compute; right; left; reflexivity).
  split; [reflexivity|].
  exact (proj1 (invalid_request_yields_message
                  (stripe_failing_step2 no_such_plan) orm_ok
                  (form_of None 10 "monthly") [] _
                  "No such plan: monthly" Hin eq_refl)).
Defined.

Lemma missing_key_raises_first_witness :
  first_missing_key (cleaned_data form_without_token) = Some "stripe_token" /\
  make_donation stripe_ok orm_ok form_without_token [] =
  {| result := Raised (KeyError "stripe_token"); events := []; table := [] |}.
Proof.
  split; [reflexivity|].
  apply (missing_key_raises_first stripe_ok orm_ok form_without_token []
           "stripe_token").
  reflexivity.
Defined.

Lemma stored_row_copies_form_witness :
  In (EvDonationCreate donation_25 (inr donation_25))
     (events (make_donation stripe_ok orm_ok
                (form_of (Some "") 25 "onetime") [])) /\
  Donation_receipt_email donation_25
    = cd_receipt_email (cleaned_data (form_of (Some "") 25 "onetime")).
Proof.
  assert (In (EvDonationCreate donation_25 (inr donation_25))
            (events (make_donation stripe_ok orm_ok
                       (form_of (Some "") 25 "onetime") []))) as Hin
    by (vm_compute; right; right; left; reflexivity).
  split; [exact Hin|].
  exact (proj1 (proj2 (stored_row_copies_form stripe_ok orm_ok
                         (form_of (Some "") 25 "onetime") [] _ _ Hin))).
Defined.

Lemma success_appends_one_row_witness :
  table (make_donation stripe_ok orm_ok (form_of None 10 "monthly")
           [donation_25])
  = [donation_25; donation_10].
Proof.
  exact (proj1 (success_appends_one_row stripe_ok orm_ok
                  (form_of None 10 "monthly") [donation_25] donation_10
                  eq_refl)).
Defined.

Lemma raised_exception_origin_witness :
  (exists key, DonationError (card_error_message "Your card was declined.")
               = KeyError key /\
     events (make_donation (stripe_failing_step2 card_declined) orm_ok
               (form_of (Some "") 25 "onetime") []) = []) \/
  (exists ev e',
     In ev (events (make_donation (stripe_failing_step2 card_declined) orm_ok
                      (form_of (Some "") 25 "onetime") [])) /\
     processor_error ev = Some e' /\
     DonationError (card_error_message "Your card was declined.")
       = surfaced e') \/
  (exists params,
     In (EvDonationCreate params
           (inl (DonationError (card_error_message "Your card was declined."))))
        (events (make_donation (stripe_failing_step2 card_declined) orm_ok
                   (form_of (Some "") 25 "onetime") []))).
Proof.
  apply (raised_exception_origin (stripe_failing_step2 card_declined) orm_ok
           (form_of (Some "") 25 "onetime") []).
  vm_compute. reflexivity.
Defined.


Lemma init_lists_disjoint_witness :
  NoDup (map fst DjangoHeroForm_fields) /\
  forall name,
    In name ["is_visible"; "is_amount_displayed"; "is_subscribed"] ->
    ~ In name ["hero_type"].
Proof.
  assert (NoDup (map fst DjangoHeroForm_fields)) as Hnames.
  { simpl.
    repeat (constructor;
            [simpl; intros H;
             repeat (destruct H as [H|H]; [discriminate H|]); exact H|]).
    constructor. }
  split; [exact Hnames|].
  exact (proj1 (proj2 (proj2 (init_lists_disjoint WidgetClass is_CheckboxInput
                                is_RadioSelect DjangoHeroForm_fields Hnames)))).
Defined.

Lemma add_data_stripe_attr_sets_witness :
  exists attrs',
    dict_get "attrs" number_kwargs' = Some (KwAttrs attrs') /\
    dict_get "data-stripe" attrs' = Some "number" /\
    (forall k, k <> "data-stripe" ->
       dict_get k attrs' =
       match dict_get "attrs" number_kwargs with
       | Some (KwAttrs attrs) => dict_get k attrs
       | _ => None
       end) /\
    (forall k, k <> "attrs" ->
       dict_get k number_kwargs' = dict_get k number_kwargs).
Proof.
  apply (add_data_stripe_attr_sets "number" number_kwargs number_kwargs').
  reflexivity.
Defined.

Lemma add_data_stripe_attr_idempotent_witness :
  _add_data_stripe_attr "number" number_kwargs' = inr number_kwargs' /\
  dict_keys number_kwargs' = ["value"; "attrs"].
Proof.
  apply (add_data_stripe_attr_idempotent "number" number_kwargs
           number_kwargs').
  reflexivity.
Defined.

Lemma strip_name_attr_absent_witness :
  _strip_name_attr (input_open ++ input_rest) "number"
  = input_open ++ input_rest.
Proof.
  apply (strip_name_attr_absent (input_open ++ input_rest) "number").
  vm_compute. reflexivity.
Defined.

Lemma strip_name_attr_removes_witness :
  _strip_name_attr (input_open ++ name_attr "number" ++ input_rest) "number"
  = input_open ++ input_rest.
Proof.
  apply (strip_name_attr_removes "number" input_open input_rest);
    vm_compute; reflexivity.
Defined.

Lemma render_strips_name_witness :
  render unit input_tag "number" tt number_kwargs
  = inr (input_open ++ input_rest).
Proof.
  exact (proj1 (render_strips_name unit input_tag "number" tt number_kwargs
                  number_kwargs' input_open input_rest
                  eq_refl eq_refl eq_refl eq_refl)).
Defined.

Lemma add_data_stripe_attr_fails_witness :
  _add_data_stripe_attr "number" [("value", KwNone); ("attrs", KwNone)]
    = inl (NoAttribute "update") <->
  dict_get "attrs" [("value", KwNone); ("attrs", KwNone)] = Some KwNone.
Proof.
  refine (proj1 (add_data_stripe_attr_fails "number"
                   [("value", KwNone); ("attrs", KwNone)] _)).
  intros repr H. vm_compute in H. discriminate H.
Defined.
